(** * doctopdf: the DOCX/PPTX to PDF conversion endpoint

    A shallow embedding of [main.py], [helpers/token.py] and
    [helpers/upload.py], and the properties of the orchestration they
    implement: validation of the file name, token acquisition, upload,
    conversion, unconditional clean-up and the response.

    The program is a sequence of awaited HTTP calls.  Each call is an
    effect; the embedding threads the history of effects through the
    program (explicit state passing) and models a Python exception as
    the [Raise] branch of a result.  What lies outside the repository
    (the HTTP client with the network behind it, the JSON decoder, the
    process environment, [str()] of a decoded JSON value) is a
    parameter of the development, so every theorem holds for every
    behaviour of the network. *)

From Stdlib Require Import List String Ascii ZArith NArith Bool Lia SpecFloat.
From Stdlib.Strings Require Import Byte.
Import ListNotations.

Set Warnings "-register-all".

(** ** Python strings

    A [str] is a sequence of Unicode code points.  A literal stands for
    the code points of its characters (the literals of this development
    are ASCII); [bytes_of_str] gives the bytes
    of a string all of whose code points are below 256, which is what
    [s.encode("latin-1")] returns, and nothing for another string,
    where [encode] raises. *)

Inductive str : Set :=
| EmptyStr
| Str (c : N) (s : str).

Fixpoint str_of_bytes (l : list byte) : str :=
  match l with
  | [] => EmptyStr
  | x :: l' => Str (Byte.to_N x) (str_of_bytes l')
  end.

Fixpoint bytes_of_str (s : str) : option (list byte) :=
  match s with
  | EmptyStr => Some []
  | Str c s' =>
      match Byte.of_N c, bytes_of_str s' with
      | Some x, Some l => Some (x :: l)
      | _, _ => None
      end
  end.

Declare Scope str_scope.
Delimit Scope str_scope with str.
Bind Scope str_scope with str.
String Notation str str_of_bytes bytes_of_str : str_scope.

Fixpoint str_app (s t : str) : str :=
  match s with
  | EmptyStr => t
  | Str c s' => Str c (str_app s' t)
  end.

Fixpoint str_eqb (s t : str) : bool :=
  match s, t with
  | EmptyStr, EmptyStr => true
  | Str c s', Str d t' => (c =? d)%N && str_eqb s' t'
  | _, _ => false
  end.

Infix "++" := str_app (right associativity, at level 60) : str_scope.
Infix "=?" := str_eqb (at level 70) : str_scope.

Local Open Scope str_scope.
Local Open Scope list_scope.

(** On the code points below 256 [str.lower] maps [A-Z] and the capital
    letters U+00C0 to U+00DE (U+00D7, the multiplication sign,
    excepted) to the code point 32 above and leaves every other
    character alone.  The lower case of the characters from U+0100 on
    is not modelled: they are left as they are.  None of them lowers to
    a character of [.docx] or [.pptx], so whether the lowered name ends
    with one of the two is the same as in Python for every name. *)

Module Py.

Definition lower_char (c : N) : N :=
  if ((65 <=? c) && (c <=? 90))%N then (c + 32)%N
  else if ((192 <=? c) && (c <=? 222) && negb (c =? 215))%N
       then (c + 32)%N
       else c.

Fixpoint lower (s : str) : str :=
  match s with
  | EmptyStr => EmptyStr
  | Str c s' => Str (lower_char c) (lower s')
  end.

(** [len(s)]. *)
Fixpoint len (s : str) : nat :=
  match s with
  | EmptyStr => 0
  | Str _ s' => S (len s')
  end.

(** [s.endswith(suffix)]: [s] is [suffix], or the tail of [s] ends
    with it. *)
Fixpoint endswith (s suffix : str) : bool :=
  (s =? suffix)%str ||
  match s with
  | EmptyStr => false
  | Str _ s' => endswith s' suffix
  end.

(** [s.endswith((suf1, suf2, ...))]: a tuple of suffixes. *)
Definition endswith_any (s : str) (suffixes : list str) : bool :=
  existsb (endswith s) suffixes.

(** [s.startswith(prefix)]. *)
Fixpoint startswith (s prefix : str) : bool :=
  match prefix with
  | EmptyStr => true
  | Str p prefix' =>
      match s with
      | EmptyStr => false
      | Str c s' => (c =? p)%N && startswith s' prefix'
      end
  end.

(** [sub in s]. *)
Fixpoint contains (s sub : str) : bool :=
  startswith s sub ||
  match s with
  | EmptyStr => false
  | Str _ s' => contains s' sub
  end.

(** [s.encode("latin-1")]; [None] where it raises
    [UnicodeEncodeError]. *)
Definition encode_latin1 (s : str) : option (list byte) := bytes_of_str s.

(** Whether every character of [s] is below U+0100. *)
Fixpoint latin1 (s : str) : bool :=
  match s with
  | EmptyStr => true
  | Str c s' => (c <=? 255)%N && latin1 s'
  end.

(** An f-string field holding a value that may be [None]
    ([os.getenv] of an unset variable). *)
Definition fmt_opt (o : option str) : str :=
  match o with
  | Some s => s
  | None => "None"
  end.

(** [bytes] literals. *)
Definition b (s : string) : list byte := list_byte_of_string s.

Fixpoint bytes_eqb (x y : list byte) : bool :=
  match x, y with
  | [], [] => true
  | a :: x', c :: y' => Byte.eqb a c && bytes_eqb x' y'
  | _, _ => false
  end.

End Py.

(** ** Values decoded from JSON

    What [res.json()] returns: [None], a [bool], an [int], a [float], a
    [str], a [list] or a [dict] with [str] keys.  A [dict] is given by
    its items, each key once. *)

Inductive jvalue : Type :=
| JNone
| JBool (v : bool)
| JInt (v : Z)
| JFloat (v : spec_float)
| JStr (v : str)
| JList (items : list jvalue)
| JDict (items : list (str * jvalue)).

Fixpoint dict_get (items : list (str * jvalue)) (key : str) : option jvalue :=
  match items with
  | [] => None
  | (k, v) :: rest => if (k =? key) then Some v else dict_get rest key
  end.

(** ** HTTP requests, responses, exceptions, effects *)

Definition Headers := list (str * str).

(** The four calls the program makes on an [httpx.AsyncClient], with
    the keyword arguments it passes. *)
Inductive request : Type :=
| POST (url : str) (data : list (str * option str))
| PUT (url : str) (headers : Headers) (content : list byte)
| GET (url : str) (headers : Headers)
| DELETE (url : str) (headers : Headers).

Record Response : Type := mkResponse {
  status_code : Z;
  content : list byte
}.

(** The exceptions of a run.
    - [HTTPException]: raised by the endpoint; the framework answers
      the caller with that status and the detail as JSON error body.
    - [HTTPStatusError]: raised by [raise_for_status].
    - [RequestError]: raised by the HTTP client when a call gets no
      response (connection, time-out, malformed URL).
    - [JSONDecodeError]: raised by [res.json()].
    - [KeyError], [TypeError]: raised by a subscript.
    - [OSError]: raised by the read of the uploaded file.
    - [UnicodeEncodeError]: raised by [encode]. *)
Inductive exn : Type :=
| HTTPException (status : Z) (detail : str)
| HTTPStatusError (res : Response)
| RequestError (what : str)
| JSONDecodeError
| KeyError (key : str)
| TypeError
| OSError (what : str)
| UnicodeEncodeError.

Inductive result (A : Type) : Type :=
| Ok (a : A)
| Raise (e : exn).
Arguments Ok {A} a.
Arguments Raise {A} e.

(** An effect of one request: an outbound HTTP call, or the read of the
    uploaded file's content. *)
Inductive event : Type :=
| Net (rq : request)
| FileRead.

Definition history := list event.

(** The outbound calls of a history, in order. *)
Fixpoint calls (h : history) : list request :=
  match h with
  | [] => []
  | Net rq :: h' => rq :: calls h'
  | FileRead :: h' => calls h'
  end.

(** [fastapi.UploadFile]: the name the caller gave (a [str]: the
    multipart parser makes an upload of a part only when the part
    carries a file name), and what [await file.read()] yields. *)
Record UploadFile : Type := mkUploadFile {
  filename : str;
  read : result (list byte)
}.

(** A [starlette.responses.StreamingResponse] as it leaves its
    constructor: the status, the media type, the raw headers (names
    and values as bytes) that are sent, and the bytes its body iterator
    yields. *)
Record StreamingResponse : Type := mkStreamingResponse {
  body : list byte;
  status : Z;
  media_type : str;
  raw_headers : list (list byte * list byte)
}.

(** [status_code=200], the default of the constructor. *)
Definition StreamingResponse_default_status : Z := 200.

(** The comprehension of [Response.init_headers]: each name lowered,
    names and values encoded as Latin-1; [None] where [encode]
    raises. *)
Fixpoint encode_headers (headers : Headers) : option (list (list byte * list byte)) :=
  match headers with
  | [] => Some []
  | (k, v) :: rest =>
      match Py.encode_latin1 (Py.lower k), Py.encode_latin1 v, encode_headers rest with
      | Some k', Some v', Some rest' => Some ((k', v') :: rest')
      | _, _, _ => None
      end
  end.

(** [Response.init_headers(headers)] on a streaming response, which has
    no [body] attribute and so gets no [content-length]: the encoded
    headers, followed by [content-type] when they name none, a
    [text/] type without a charset getting [utf-8]. *)
Definition init_headers (headers : Headers) (media : str)
  : result (list (list byte * list byte)) :=
  match encode_headers headers with
  | None => Raise UnicodeEncodeError
  | Some raw =>
      if existsb (Py.bytes_eqb (Py.b "content-type")) (map fst raw)
      then Ok raw
      else
        let content_type :=
          if Py.startswith media "text/"
             && negb (Py.contains (Py.lower media) "charset=")
          then (media ++ "; charset=utf-8")%str
          else media in
        match Py.encode_latin1 content_type with
        | Some v => Ok (raw ++ [(Py.b "content-type", v)])
        | None => Raise UnicodeEncodeError
        end
  end.

(** [StreamingResponse(content, headers=headers, media_type=media)]
    over the bytes of an [io.BytesIO]. *)
Definition StreamingResponse_init (content : list byte) (headers : Headers) (media : str)
  : result StreamingResponse :=
  match init_headers headers media with
  | Ok raw =>
      Ok {| body := content;
            status := StreamingResponse_default_status;
            media_type := media;
            raw_headers := raw |}
  | Raise e => Raise e
  end.

(** ** The effect monad: history passing with exceptions *)

Definition M (A : Type) : Type := history -> result A * history.

Definition ret {A} (a : A) : M A := fun h => (Ok a, h).

Definition raise {A} (e : exn) : M A := fun h => (Raise e, h).

(** A step without effect that returns or raises. *)
Definition of_result {A} (r : result A) : M A := fun h => (r, h).

Definition bind {A B} (m : M A) (k : A -> M B) : M B :=
  fun h =>
    match m h with
    | (Ok a, h') => k a h'
    | (Raise e, h') => (Raise e, h')
    end.

(** [try: body finally: fin].  The [finally] suite always runs; when it
    raises, its exception replaces the outcome of the body, otherwise
    the outcome of the body stands. *)
Definition try_finally {A} (body : M A) (fin : M unit) : M A :=
  fun h =>
    match body h with
    | (r, h') =>
        match fin h' with
        | (Ok _, h'') => (r, h'')
        | (Raise e, h'') => (Raise e, h'')
        end
    end.

Declare Scope py_scope.
Delimit Scope py_scope with py.
Notation "x <- m ;; k" := (bind m (fun x => k))
  (at level 61, m at next level, right associativity) : py_scope.
Notation "m ;;; k" := (bind m (fun _ => k))
  (at level 61, right associativity) : py_scope.
Local Open Scope py_scope.

(** [httpx]'s [Response.is_success] (a 2xx status) and
    [Response.raise_for_status], which raises on every other status. *)
Definition is_success (res : Response) : bool :=
  ((200 <=? status_code res) && (status_code res <=? 299))%Z.

Definition raise_for_status (res : Response) : M unit :=
  if is_success res then ret tt else raise (HTTPStatusError res).

(** [value[key]] with a [str] key on a decoded JSON value. *)
Definition getitem (v : jvalue) (key : str) : M jvalue :=
  match v with
  | JDict items =>
      match dict_get items key with
      | Some x => ret x
      | None => raise (KeyError key)
      end
  | _ => raise TypeError
  end.

(** ** What the program takes from outside the repository *)

Record World : Type := mkWorld {
  (** The process environment ([os.getenv]). *)
  TENANT_ID : option str;
  CLIENT_ID : option str;
  CLIENT_SECRET : option str;
  GRAPH_USER_ID : option str;
  (** The HTTP client and the network: the outcome of a call, which may
      depend on everything that happened before it. *)
  client : history -> request -> result Response;
  (** The JSON decoder behind [res.json()]; [None] when the body does
      not decode. *)
  json_loads : list byte -> option jvalue;
  (** [str()] of a decoded JSON value that is not a [str]. *)
  py_str : jvalue -> str
}.

Section Service.

Variable w : World.

(** An f-str field holding a decoded JSON value. *)
Definition fmt (v : jvalue) : str :=
  match v with
  | JStr s => s
  | _ => py_str w v
  end.

(** [await client.post/put/get/delete(...)] on a fresh
    [httpx.AsyncClient]: the call is recorded, answered or not. *)
Definition send (rq : request) : M Response :=
  fun h => (client w h rq, h ++ [Net rq]).

(** [res.json()]. *)
Definition json (res : Response) : M jvalue :=
  match json_loads w (content res) with
  | Some v => ret v
  | None => raise JSONDecodeError
  end.

(** *** helpers/token.py *)

Definition TOKEN_URL : str :=
  ("https://login.microsoftonline.com/" ++ Py.fmt_opt (TENANT_ID w) ++ "/oauth2/v2.0/token")%str.

Definition token_request : request :=
  POST TOKEN_URL
       [ ("client_id", CLIENT_ID w);
         ("client_secret", CLIENT_SECRET w);
         ("grant_type", Some "client_credentials");
         ("scope", Some "https://graph.microsoft.com/.default") ].

Definition get_access_token : M jvalue :=
  res <- send token_request ;;
  raise_for_status res ;;;
  j <- json res ;;
  getitem j "access_token".

(** *** helpers/upload.py *)

Definition BASE_URL : str :=
  ("https://graph.microsoft.com/v1.0/users/" ++ Py.fmt_opt (GRAPH_USER_ID w) ++ "/drive")%str.

Definition bearer (token : jvalue) : str * str :=
  ("Authorization", ("Bearer " ++ fmt token)%str).

Definition upload_request (token : jvalue) (name : str) (data : list byte) : request :=
  PUT (BASE_URL ++ "/root:/" ++ name ++ ":/content")%str
      [ bearer token; ("Content-Type", "application/octet-stream") ]
      data.

Definition convert_request (token : jvalue) (name : str) : request :=
  GET (BASE_URL ++ "/root:/" ++ name ++ ":/content?format=pdf")%str [ bearer token ].

Definition delete_request (token : jvalue) (name : str) : request :=
  DELETE (BASE_URL ++ "/root:/" ++ name)%str [ bearer token ].

Definition upload_file (token : jvalue) (name : str) (data : list byte) : M jvalue :=
  res <- send (upload_request token name data) ;;
  raise_for_status res ;;;
  json res.

Definition convert_to_pdf (token : jvalue) (name : str) : M (list byte) :=
  res <- send (convert_request token name) ;;
  raise_for_status res ;;;
  ret (content res).

Definition delete_file (token : jvalue) (name : str) : M unit :=
  _ <- send (delete_request token name) ;;
  ret tt.

(** *** main.py *)

Definition valid_filename (name : str) : bool :=
  Py.endswith_any (Py.lower name) [".docx"; ".pptx"].

(** [await file.read()]. *)
Definition file_read (file : UploadFile) : M (list byte) :=
  fun h => (read file, h ++ [FileRead]).

(** The [try] suite of [convert]. *)
Definition upload_then_convert (token : jvalue) (name : str) (data : list byte)
  : M (list byte) :=
  upload_file token name data ;;;
  convert_to_pdf token name.

(** The [return] statement of [convert]. *)
Definition pdf_response (name : str) (pdf_bytes : list byte) : result StreamingResponse :=
  StreamingResponse_init
    pdf_bytes
    [ ("Content-Disposition", ("attachment; filename=" ++ name ++ ".pdf")%str) ]
    "application/pdf".

Definition convert (file : UploadFile) : M StreamingResponse :=
  if negb (valid_filename (filename file))
  then raise (HTTPException 400 "Only DOCX or PPTX supported")
  else
    token <- get_access_token ;;
    data <- file_read file ;;
    pdf_bytes <- try_finally
                   (upload_then_convert token (filename file) data)
                   (delete_file token (filename file)) ;;
    of_result (pdf_response (filename file) pdf_bytes).

End Service.

(** ** Outcomes of the helpers

    What each helper makes of the outcome of its one HTTP call. *)

Section Outcomes.

Variable w : World.

(** The outcome of [get_access_token], read off the token response. *)
Definition token_outcome (r : result Response) : result jvalue :=
  match r with
  | Raise e => Raise e
  | Ok res =>
      if is_success res then
        match json_loads w (content res) with
        | None => Raise JSONDecodeError
        | Some (JDict items) =>
            match dict_get items "access_token" with
            | Some v => Ok v
            | None => Raise (KeyError "access_token")
            end
        | Some _ => Raise TypeError
        end
      else Raise (HTTPStatusError res)
  end.

(** The outcome of [upload_file], read off the upload response. *)
Definition upload_outcome (r : result Response) : result jvalue :=
  match r with
  | Raise e => Raise e
  | Ok res =>
      if is_success res then
        match json_loads w (content res) with
        | None => Raise JSONDecodeError
        | Some v => Ok v
        end
      else Raise (HTTPStatusError res)
  end.

(** The outcome of [convert_to_pdf], read off the conversion response. *)
Definition convert_outcome (r : result Response) : result (list byte) :=
  match r with
  | Raise e => Raise e
  | Ok res => if is_success res then Ok (content res) else Raise (HTTPStatusError res)
  end.

(** The outcome of [delete_file]: the response is dropped unread. *)
Definition delete_outcome (r : result Response) : result unit :=
  match r with
  | Raise e => Raise e
  | Ok _ => Ok tt
  end.

End Outcomes.

(** The kind of an outbound call. *)
Definition is_put (rq : request) : bool :=
  match rq with PUT _ _ _ => true | _ => false end.
Definition is_get (rq : request) : bool :=
  match rq with GET _ _ => true | _ => false end.
Definition is_delete (rq : request) : bool :=
  match rq with DELETE _ _ => true | _ => false end.

(** How many calls of a kind a list holds. *)
Definition count (p : request -> bool) (l : list request) : nat :=
  List.length (filter p l).

Definition is_post (rq : request) : bool :=
  match rq with POST _ _ => true | _ => false end.

(** How many times a history reads the content of the uploaded file. *)
Fixpoint reads (h : history) : nat :=
  match h with
  | [] => 0
  | FileRead :: h' => S (reads h')
  | Net _ :: h' => reads h'
  end.

(** The URL a call addresses. *)
Definition request_url (rq : request) : str :=
  match rq with
  | POST url _ => url
  | PUT url _ _ => url
  | GET url _ => url
  | DELETE url _ => url
  end.

(** The headers a call carries; the token request passes none. *)
Definition request_headers (rq : request) : Headers :=
  match rq with
  | POST _ _ => []
  | PUT _ headers _ => headers
  | GET _ headers => headers
  | DELETE _ headers => headers
  end.

(** ** Test doubles

    A scripted network: one fixed outcome per kind of call, whatever
    the history; a decoder that knows two bodies; a [str()] that
    prints nothing of interest.  They instantiate the theorems at
    concrete requests. *)

Module Demo.

Definition scripted (token upload conversion deletion : result Response)
  : history -> request -> result Response :=
  fun _ rq =>
    match rq with
    | POST _ _ => token
    | PUT _ _ _ => upload
    | GET _ _ => conversion
    | DELETE _ _ => deletion
    end.

(** The JSON text of an object whose one member [access_token] is the
    string [tok]. *)
Definition token_json : string :=
  let q := String (ascii_of_nat 34) EmptyString in
  ("{" ++ q ++ "access_token" ++ q ++ ": " ++ q ++ "tok" ++ q ++ "}")%string.

Definition loads (body : list byte) : option jvalue :=
  let s := string_of_list_byte body in
  if (s =? token_json)%string
  then Some (JDict [("access_token", JStr "tok")])
  else if (s =? "{}")%string then Some (JDict [])
  else None.

Definition str_of (v : jvalue) : str := "<value>".

Definition world (net : history -> request -> result Response) : World :=
  {| TENANT_ID := Some "tenant";
     CLIENT_ID := Some "id";
     CLIENT_SECRET := Some "secret";
     GRAPH_USER_ID := Some "owner";
     client := net;
     json_loads := loads;
     py_str := str_of |}.

Definition token_ok : result Response := Ok (mkResponse 200 (Py.b token_json)).
Definition created : result Response := Ok (mkResponse 201 (Py.b "{}")).
Definition created_html : result Response := Ok (mkResponse 201 (Py.b "<html/>")).
Definition pdf_ok : result Response := Ok (mkResponse 200 (Py.b "%PDF-1.7")).
Definition no_content : result Response := Ok (mkResponse 204 []).
Definition not_found : result Response := Ok (mkResponse 404 (Py.b "{}")).
Definition unauthorized : result Response := Ok (mkResponse 401 (Py.b "{}")).
Definition unreachable : result Response := Raise (RequestError "ConnectError").

(** Every call succeeds. *)
Definition happy : World := world (scripted token_ok created pdf_ok no_content).

Definition tok : jvalue := JStr "tok".

(** The token request is refused. *)
Definition no_token : World := world (scripted unauthorized created pdf_ok no_content).

(** The upload is answered 201 with a body that is not JSON. *)
Definition html_upload : World :=
  world (scripted token_ok created_html pdf_ok no_content).

(** The delete is answered 404. *)
Definition delete_404 : World := world (scripted token_ok created pdf_ok not_found).

(** The delete call gets no response. *)
Definition delete_offline : World :=
  world (scripted token_ok created pdf_ok unreachable).

(** The upload is refused. *)
Definition upload_refused : World :=
  world (scripted token_ok unauthorized pdf_ok no_content).

(** The conversion is refused. *)
Definition conversion_refused : World :=
  world (scripted token_ok created not_found no_content).

(** The token endpoint grants one token and refuses every later
    request; the drive answers as in [happy]. *)
Definition one_token : World :=
  world (fun h rq =>
           match rq with
           | POST _ _ => if existsb is_post (calls h) then unauthorized else token_ok
           | _ => scripted token_ok created pdf_ok no_content h rq
           end).

(** No variable of the environment is set; every call succeeds. *)
Definition unconfigured : World :=
  {| TENANT_ID := None;
     CLIENT_ID := None;
     CLIENT_SECRET := None;
     GRAPH_USER_ID := None;
     client := scripted token_ok created pdf_ok no_content;
     json_loads := loads;
     py_str := str_of |}.

Definition report : UploadFile := mkUploadFile "report.docx" (Ok (Py.b "X")).
Definition image : UploadFile := mkUploadFile "image.png" (Ok (Py.b "X")).
(** A file whose name is two CJK ideographs (U+6587, U+4EF6) and the
    extension. *)
Definition wide : UploadFile :=
  mkUploadFile (Str 25991 (Str 20214 ".docx")) (Ok (Py.b "X")).

(** The response to a converted [report.docx]. *)
Definition report_pdf : StreamingResponse :=
  {| body := Py.b "%PDF-1.7";
     status := 200;
     media_type := "application/pdf";
     raw_headers :=
       [ (Py.b "content-disposition", Py.b "attachment; filename=report.docx.pdf");
         (Py.b "content-type", Py.b "application/pdf") ] |}.

Definition unreadable : UploadFile :=
  mkUploadFile "report.docx" (Raise (OSError "read of closed file")).

End Demo.

(** * Properties *)

(** ** Strings: [endswith] and [lower] *)

Module PyFacts.

Lemma str_eqb_eq (s t : str) : (s =? t)%str = true <-> s = t.
Proof.
  revert t. induction s as [|c s IH]; intros [|d t]; simpl;
    try (split; [discriminate | discriminate]); [tauto|].
  rewrite andb_true_iff, N.eqb_eq, IH. split.
  - now intros [-> ->].
  - intros H. injection H as -> ->. now split.
Qed.

Lemma str_eqb_spec (s t : str) : reflect (s = t) (s =? t)%str.
Proof.
  destruct (s =? t)%str eqn:E; constructor.
  - now apply str_eqb_eq.
  - intros H. apply str_eqb_eq in H. congruence.
Qed.

Lemma endswith_spec (s suffix : str) :
  Py.endswith s suffix = true <-> exists p, s = (p ++ suffix)%str.
Proof.
  induction s as [|c s IH]; cbn [Py.endswith].
  - rewrite orb_false_r, str_eqb_eq. split.
    + intros <-. now exists EmptyStr.
    + intros [[|c p] Hp]; simpl in Hp; [assumption | discriminate].
  - rewrite orb_true_iff, str_eqb_eq, IH. split.
    + intros [<- | [p ->]].
      * now exists EmptyStr.
      * now exists (Str c p).
    + intros [[|c' p] Hp]; simpl in Hp.
      * now left.
      * right. exists p. congruence.
Qed.

Lemma lower_app (p s : str) :
  Py.lower (p ++ s) = (Py.lower p ++ Py.lower s)%str.
Proof.
  induction p as [|c p IH]; simpl; [reflexivity | now rewrite IH].
Qed.

(** A lowered name that splits into two parts is the lowering of a
    name split at the same place. *)
Lemma lower_split (q suffix name : str) :
  Py.lower name = (q ++ suffix)%str ->
  exists p e, name = (p ++ e)%str /\ Py.lower p = q /\ Py.lower e = suffix.
Proof.
  revert name. induction q as [|c q IH]; intros name H; simpl in H.
  - exists EmptyStr, name. now repeat split.
  - destruct name as [|c0 name]; simpl in H; [discriminate|].
    injection H as Hc Hn.
    destruct (IH _ Hn) as (p & e & -> & <- & <-).
    exists (Str c0 p), e. simpl. now rewrite Hc.
Qed.

(** The names the endpoint accepts: those with an ending whose lower
    case is [.docx] or [.pptx]. *)
Lemma valid_filename_spec (name : str) :
  valid_filename name = true <->
  exists p e, name = (p ++ e)%str /\ (Py.lower e = ".docx" \/ Py.lower e = ".pptx").
Proof.
  unfold valid_filename, Py.endswith_any. cbn [existsb].
  rewrite orb_false_r, orb_true_iff, !endswith_spec. split.
  - intros [[q H] | [q H]]; apply lower_split in H as (p & e & -> & _ & He);
      exists p, e; auto.
  - intros (p & e & -> & [He | He]); rewrite lower_app, He; eauto.
Qed.

End PyFacts.

(** ** Runs of the helpers *)

Ltac unfold_run :=
  unfold get_access_token, upload_file, convert_to_pdf, delete_file,
    upload_then_convert, file_read, send, json, getitem, raise_for_status,
    try_finally, bind, ret, raise in *.

(** Case analysis on the innermost scrutinee of the goal. *)
Ltac case_innermost x :=
  match x with
  | context [match ?y with _ => _ end] => case_innermost y
  | _ => destruct x eqn:?
  end.

Ltac case_scrutinee :=
  match goal with
  | |- context [match ?x with _ => _ end] => case_innermost x
  end.

Ltac run :=
  unfold_run; cbv beta iota;
  repeat (case_scrutinee; cbv beta iota);
  try reflexivity; try congruence.

Section Runs.

Variable w : World.

Lemma get_access_token_run (h : history) :
  get_access_token w h =
  (token_outcome w (client w h (token_request w)), h ++ [Net (token_request w)]).
Proof. unfold token_outcome. run. Qed.

Lemma upload_file_run (token : jvalue) (name : str) (data : list byte) (h : history) :
  upload_file w token name data h =
  (upload_outcome w (client w h (upload_request w token name data)),
   h ++ [Net (upload_request w token name data)]).
Proof. unfold upload_outcome. run. Qed.

Lemma convert_to_pdf_run (token : jvalue) (name : str) (h : history) :
  convert_to_pdf w token name h =
  (convert_outcome (client w h (convert_request w token name)),
   h ++ [Net (convert_request w token name)]).
Proof. unfold convert_outcome. run. Qed.

Lemma delete_file_run (token : jvalue) (name : str) (h : history) :
  delete_file w token name h =
  (delete_outcome (client w h (delete_request w token name)),
   h ++ [Net (delete_request w token name)]).
Proof. unfold delete_outcome. run. Qed.

Lemma upload_then_convert_raise token name data h e :
  fst (upload_file w token name data h) = Raise e ->
  upload_then_convert w token name data h =
  (Raise e, h ++ [Net (upload_request w token name data)]).
Proof.
  rewrite upload_file_run. simpl. intros H.
  unfold upload_then_convert, bind. now rewrite upload_file_run, H.
Qed.

Lemma upload_then_convert_ok token name data h v :
  fst (upload_file w token name data h) = Ok v ->
  upload_then_convert w token name data h =
  convert_to_pdf w token name (h ++ [Net (upload_request w token name data)]).
Proof.
  rewrite upload_file_run. simpl. intros H.
  unfold upload_then_convert, bind. now rewrite upload_file_run, H.
Qed.

(** [try ... finally] with [delete_file] as the [finally] suite. *)
Lemma try_finally_delete {A} (body : M A) token name h r h' :
  body h = (r, h') ->
  try_finally body (delete_file w token name) h =
  (match delete_outcome (client w h' (delete_request w token name)) with
   | Ok _ => r
   | Raise e => Raise e
   end,
   h' ++ [Net (delete_request w token name)]).
Proof.
  intros H. unfold try_finally. rewrite H, delete_file_run.
  now destruct (delete_outcome _).
Qed.

(** An accepted request, step by step. *)
Lemma convert_valid (file : UploadFile) (h : history) :
  valid_filename (filename file) = true ->
  convert w file h =
  bind (get_access_token w) (fun token =>
  bind (file_read file) (fun data =>
  bind (try_finally (upload_then_convert w token (filename file) data)
                    (delete_file w token (filename file))) (fun pdf_bytes =>
  of_result (pdf_response (filename file) pdf_bytes)))) h.
Proof. intros H. unfold convert. now rewrite H. Qed.

End Runs.

(** ** The run of the endpoint *)

Section Endpoint.

Variable w : World.

(** The whole run of an accepted request, by the outcomes of its
    calls: the token request, the read of the content, the upload, the
    conversion, and the delete that closes both ways out of the [try]
    suite. *)
Lemma convert_run (file : UploadFile) (h : history) :
  valid_filename (filename file) = true ->
  convert w file h =
  let name := filename file in
  let h1 := h ++ [Net (token_request w)] in
  match token_outcome w (client w h (token_request w)) with
  | Raise e => (Raise e, h1)
  | Ok token =>
      let h2 := h1 ++ [FileRead] in
      match read file with
      | Raise e => (Raise e, h2)
      | Ok data =>
          let h3 := h2 ++ [Net (upload_request w token name data)] in
          match upload_outcome w (client w h2 (upload_request w token name data)) with
          | Raise e =>
              (match delete_outcome (client w h3 (delete_request w token name)) with
               | Ok _ => Raise e
               | Raise e' => Raise e'
               end,
               h3 ++ [Net (delete_request w token name)])
          | Ok _ =>
              let h4 := h3 ++ [Net (convert_request w token name)] in
              (match delete_outcome (client w h4 (delete_request w token name)) with
               | Ok _ =>
                   match convert_outcome (client w h3 (convert_request w token name)) with
                   | Ok pdf_bytes => pdf_response name pdf_bytes
                   | Raise e => Raise e
                   end
               | Raise e' => Raise e'
               end,
               h4 ++ [Net (delete_request w token name)])
          end
      end
  end.
Proof.
  intros Hv. rewrite (convert_valid w file h Hv). cbv zeta.
  unfold bind at 1. rewrite get_access_token_run.
  destruct (token_outcome w _) as [token|e]; [|reflexivity].
  unfold bind at 1. unfold file_read.
  destruct (read file) as [data|e]; [|reflexivity].
  unfold bind at 1.
  destruct (upload_outcome w _) as [v|e] eqn:Hup.
  - erewrite try_finally_delete.
    2:{ erewrite upload_then_convert_ok by (rewrite upload_file_run; exact Hup).
        apply convert_to_pdf_run. }
    destruct (delete_outcome _); [|reflexivity].
    now destruct (convert_outcome _).
  - erewrite try_finally_delete.
    2:{ apply upload_then_convert_raise. rewrite upload_file_run. exact Hup. }
    now destruct (delete_outcome _).
Qed.

(** The run of a rejected request. *)
Lemma convert_invalid (file : UploadFile) (h : history) :
  valid_filename (filename file) = false ->
  convert w file h = (Raise (HTTPException 400 "Only DOCX or PPTX supported"), h).
Proof. intros Hv. unfold convert. now rewrite Hv. Qed.

End Endpoint.

(** ** The response and its headers *)

Module ResponseFacts.

Lemma encode_latin1_app (s t : str) :
  Py.encode_latin1 (s ++ t)%str =
  match Py.encode_latin1 s, Py.encode_latin1 t with
  | Some x, Some y => Some (x ++ y)
  | _, _ => None
  end.
Proof.
  unfold Py.encode_latin1. induction s as [|c s IH]; simpl.
  - now destruct (bytes_of_str t).
  - rewrite IH. destruct (Byte.of_N c); [|reflexivity].
    destruct (bytes_of_str s); [|reflexivity].
    now destruct (bytes_of_str t).
Qed.

(** [encode("latin-1")] succeeds exactly on the strings all of whose
    characters are below U+0100. *)
Lemma encode_latin1_some (s : str) :
  (exists d, Py.encode_latin1 s = Some d) <-> Py.latin1 s = true.
Proof.
  unfold Py.encode_latin1. induction s as [|c s IH]; simpl.
  - split; eauto.
  - rewrite andb_true_iff, <- IH, N.leb_le. split.
    + intros [d H]. destruct (Byte.of_N c) eqn:E; [|discriminate].
      destruct (bytes_of_str s); [|discriminate]. split; [|eauto].
      apply N.le_ngt. intros Hc. apply Byte.of_N_None_iff in Hc. congruence.
    + intros [Hc [d ->]]. destruct (Byte.of_N c) eqn:E; [eauto|].
      apply Byte.of_N_None_iff in E. lia.
Qed.

(** The header value of the download encodes exactly when the file name
    does. *)
Lemma disposition_encodes (name : str) :
  (exists d, Py.encode_latin1 ("attachment; filename=" ++ name ++ ".pdf")%str = Some d)
  <-> Py.latin1 name = true.
Proof.
  rewrite <- encode_latin1_some, !encode_latin1_app.
  change (Py.encode_latin1 "attachment; filename=")
    with (Some (Py.b "attachment; filename=")).
  change (Py.encode_latin1 ".pdf") with (Some (Py.b ".pdf")).
  destruct (Py.encode_latin1 name); split; intros [d H]; try discriminate; eauto.
Qed.

(** What the [return] statement of [convert] builds: the response with
    the two headers, or the error of the encoding of the file name. *)
Lemma pdf_response_eq (name : str) (pdf_bytes : list byte) :
  pdf_response name pdf_bytes =
  match Py.encode_latin1 ("attachment; filename=" ++ name ++ ".pdf")%str with
  | Some disposition =>
      Ok {| body := pdf_bytes;
            status := 200;
            media_type := "application/pdf";
            raw_headers := [ (Py.b "content-disposition", disposition);
                             (Py.b "content-type", Py.b "application/pdf") ] |}
  | None => Raise UnicodeEncodeError
  end.
Proof.
  unfold pdf_response, StreamingResponse_init, init_headers.
  cbn [encode_headers].
  change (Py.encode_latin1 (Py.lower "Content-Disposition"))
    with (Some (Py.b "content-disposition")).
  destruct (Py.encode_latin1 _) as [d|]; reflexivity.
Qed.

End ResponseFacts.

(** ** The orchestration contract *)

Section Contract.

Variable w : World.

(** C2. A request whose file name does not end, case-insensitively, in
    [.docx] or [.pptx] is answered with the 400 validation error whose
    detail is "Only DOCX or PPTX supported", and the history is left as
    it was: no token request, no drive operation, no outbound call at
    all. *)
Theorem invalid_filename_rejected (file : UploadFile) (h : history) :
  ~ (exists p e, filename file = (p ++ e)%str /\
                 (Py.lower e = ".docx" \/ Py.lower e = ".pptx")) ->
  convert w file h = (Raise (HTTPException 400 "Only DOCX or PPTX supported"), h)
  /\ calls (snd (convert w file h)) = calls h.
Proof.
  intros Hn.
  assert (Hv : valid_filename (filename file) = false).
  { destruct (valid_filename (filename file)) eqn:E; [|reflexivity].
    exfalso. apply Hn. now apply PyFacts.valid_filename_spec. }
  rewrite (convert_invalid w file h Hv). split; reflexivity.
Qed.

(** C6. When token acquisition fails, the request ends with that error
    and the token request is the only call made: no upload is attempted
    and no delete is issued. *)
Theorem token_failure_is_terminal (file : UploadFile) (h : history) (e : exn) :
  valid_filename (filename file) = true ->
  fst (get_access_token w h) = Raise e ->
  convert w file h = (Raise e, h ++ [Net (token_request w)])
  /\ count is_put (calls [Net (token_request w)]) = 0
  /\ count is_get (calls [Net (token_request w)]) = 0
  /\ count is_delete (calls [Net (token_request w)]) = 0.
Proof.
  intros Hv Ht. rewrite get_access_token_run in Ht. simpl in Ht.
  rewrite (convert_run w file h Hv). cbv zeta. rewrite Ht.
  repeat split; reflexivity.
Qed.

(** C9. The token is acquired before the content of the uploaded file
    is read: the token request is the first effect of an accepted
    request, and the read follows it only when a token was obtained.
    When the read then fails, the request ends with the error of the
    read and no drive operation (upload, convert, delete) is
    performed. *)
Theorem token_acquired_before_read (file : UploadFile) (h : history) :
  valid_filename (filename file) = true ->
  (exists rest,
      snd (convert w file h) = h ++ Net (token_request w) :: rest /\
      (rest = [] \/
       exists token rest',
         fst (get_access_token w h) = Ok token /\ rest = FileRead :: rest'))
  /\ (forall token h1 e,
         get_access_token w h = (Ok token, h1) ->
         read file = Raise e ->
         convert w file h = (Raise e, h ++ [Net (token_request w); FileRead])).
Proof.
  intros Hv. rewrite (convert_run w file h Hv), get_access_token_run. cbv zeta.
  simpl fst. split.
  - destruct (token_outcome w _) as [token|e]; [|exists []; auto].
    destruct (read file) as [data|e].
    + destruct (upload_outcome w _); simpl snd;
        rewrite <- !app_assoc; simpl; eexists; split; try reflexivity;
        right; eauto.
    + simpl snd. rewrite <- !app_assoc. simpl. eexists; split; [reflexivity|].
      right; eauto.
  - intros token h1 e Ht Hr. injection Ht as Ht _. rewrite Ht, Hr.
    now rewrite <- app_assoc.
Qed.

(** C1. The outbound calls of an accepted request are, in this order,
    the token request, the upload, the conversion and the delete.  When
    a token is obtained, the content is read and the upload returns,
    the calls are exactly these four, in this order.  When the upload
    fails the conversion is never called and the delete is still issued
    exactly once: the calls are the token request, the upload and the
    delete.  When no token is obtained or the content cannot be read,
    the token request is the only call.  Once the upload was attempted
    the delete is issued exactly once, whatever the way out, and it is
    the last call. *)
Theorem outbound_call_order (file : UploadFile) (h : history) :
  valid_filename (filename file) = true ->
  exists evs,
    let name := filename file in
    snd (convert w file h) = h ++ evs
    /\ (exists token data,
          calls evs = [token_request w]
          \/ calls evs = [token_request w; upload_request w token name data;
                          delete_request w token name]
          \/ calls evs = [token_request w; upload_request w token name data;
                          convert_request w token name; delete_request w token name])
    /\ (existsb is_put (calls evs) = true ->
        count is_delete (calls evs) = 1
        /\ exists before rq, calls evs = before ++ [rq] /\ is_delete rq = true)
    /\ (forall token data,
          fst (get_access_token w h) = Ok token ->
          read file = Ok data ->
          (forall meta,
              fst (upload_file w token name data
                     (h ++ [Net (token_request w); FileRead])) = Ok meta ->
              calls evs = [token_request w; upload_request w token name data;
                           convert_request w token name; delete_request w token name])
          /\ (forall e,
                fst (upload_file w token name data
                       (h ++ [Net (token_request w); FileRead])) = Raise e ->
                calls evs = [token_request w; upload_request w token name data;
                             delete_request w token name]
                /\ count is_get (calls evs) = 0
                /\ count is_delete (calls evs) = 1))
    /\ ((forall token, fst (get_access_token w h) <> Ok token)
        \/ (forall data, read file <> Ok data) ->
        calls evs = [token_request w]).
Proof.
  intros Hv. rewrite (convert_run w file h Hv), get_access_token_run.
  cbv zeta. simpl fst.
  destruct (token_outcome w _) as [token|e] eqn:Ht.
  2:{ exists [Net (token_request w)]. simpl.
      split; [reflexivity|]. split; [exists JNone, []; now left|].
      split; [discriminate|]. split; [discriminate|]. reflexivity. }
  destruct (read file) as [data|e] eqn:Hr.
  2:{ exists [Net (token_request w); FileRead]. simpl.
      rewrite <- app_assoc.
      split; [reflexivity|]. split; [exists token, []; now left|].
      split; [discriminate|]. split; [discriminate|]. reflexivity. }
  rewrite <- (app_assoc h). simpl app.
  destruct (upload_outcome w _) as [v|e] eqn:Hu; simpl snd.
  - exists [Net (token_request w); FileRead;
            Net (upload_request w token (filename file) data);
            Net (convert_request w token (filename file));
            Net (delete_request w token (filename file))].
    rewrite <- !app_assoc. simpl.
    split; [reflexivity|]. split; [exists token, data; now right; right|].
    split.
    { intros _. split; [reflexivity|].
      exists [token_request w; upload_request w token (filename file) data;
              convert_request w token (filename file)],
             (delete_request w token (filename file)). now split. }
    split.
    { intros token' data' H1 H2. injection H1 as <-. injection H2 as <-.
      split; [reflexivity|].
      intros e H3. rewrite upload_file_run in H3. simpl in H3.
      rewrite Hu in H3. discriminate. }
    intros [H|H]; [now destruct (H token) | now destruct (H data)].
  - exists [Net (token_request w); FileRead;
            Net (upload_request w token (filename file) data);
            Net (delete_request w token (filename file))].
    rewrite <- !app_assoc. simpl.
    split; [reflexivity|]. split; [exists token, data; now right; left|].
    split.
    { intros _. split; [reflexivity|].
      exists [token_request w; upload_request w token (filename file) data],
             (delete_request w token (filename file)). now split. }
    split.
    { intros token' data' H1 H2. injection H1 as <-. injection H2 as <-.
      split; [|now repeat split].
      intros meta H3. rewrite upload_file_run in H3. simpl in H3.
      rewrite Hu in H3. discriminate. }
    intros [H|H]; [now destruct (H token) | now destruct (H data)].
Qed.

(** C7. Within one request the three drive operations address the
    same file name, the name of the uploaded file, and carry the same
    bearer token, the one the token request returned: every outbound
    call of the request is the token request, the [PUT] of the content
    to [{base}/root:/{filename}:/content], the [GET] of
    [{base}/root:/{filename}:/content?format=pdf] or the [DELETE] of
    [{base}/root:/{filename}]. *)
Theorem drive_calls_same_name_and_token
  (file : UploadFile) (h evs : history) (rq : request) :
  snd (convert w file h) = h ++ evs ->
  In rq (calls evs) ->
  rq = token_request w
  \/ exists token data,
      let name := filename file in
      let auth := ("Authorization", ("Bearer " ++ fmt w token)%str) in
      fst (get_access_token w h) = Ok token
      /\ read file = Ok data
      /\ (rq = PUT (BASE_URL w ++ "/root:/" ++ name ++ ":/content")%str
                   [auth; ("Content-Type", "application/octet-stream")] data
          \/ rq = GET (BASE_URL w ++ "/root:/" ++ name ++ ":/content?format=pdf")%str
                      [auth]
          \/ rq = DELETE (BASE_URL w ++ "/root:/" ++ name)%str [auth]).
Proof.
  intros Hs Hin.
  destruct (valid_filename (filename file)) eqn:Hv.
  2:{ rewrite (convert_invalid w file h Hv) in Hs. simpl in Hs.
      rewrite <- (app_nil_r h) in Hs at 1. apply app_inv_head in Hs.
      subst evs. destruct Hin. }
  rewrite (convert_run w file h Hv) in Hs. cbv zeta in Hs.
  rewrite get_access_token_run. simpl fst.
  destruct (token_outcome w _) as [token|e].
  2:{ apply app_inv_head in Hs. subst evs. simpl in Hin.
      destruct Hin as [<-|[]]. now left. }
  destruct (read file) as [data|e].
  2:{ rewrite <- app_assoc in Hs. apply app_inv_head in Hs. subst evs.
      simpl in Hin. destruct Hin as [<-|[]]. now left. }
  destruct (upload_outcome w _); simpl in Hs; rewrite <- !app_assoc in Hs;
    apply app_inv_head in Hs; subst evs; simpl in Hin;
    repeat (destruct Hin as [<-|Hin]; [|]); try destruct Hin;
    try (now left); right; exists token, data; cbv zeta;
    (split; [reflexivity|]); (split; [reflexivity|]);
    unfold upload_request, convert_request, delete_request, bearer; auto.
Qed.

(** C4, amended.  The success path, for a file name all of whose
    characters are below U+0100.  The endpoint returns a response
    exactly when the name is accepted, a token is obtained, the content
    is read, the upload succeeds, the conversion call is answered with
    a success status, the delete call is answered at all, and the name
    encodes as Latin-1.  The response then has status 200, the headers
    [content-disposition], an attachment with the original file name
    followed by [.pdf], and [content-type], [application/pdf], and as
    body the content of the conversion response, byte for byte,
    whatever those bytes are. *)
Theorem success_response
  (file : UploadFile) (h h' : history) (resp : StreamingResponse) :
  convert w file h = (Ok resp, h') <->
  valid_filename (filename file) = true
  /\ exists token data meta pdf_res del_res disposition,
      let name := filename file in
      let h2 := h ++ [Net (token_request w); FileRead] in
      let h3 := h2 ++ [Net (upload_request w token name data)] in
      let h4 := h3 ++ [Net (convert_request w token name)] in
      fst (get_access_token w h) = Ok token
      /\ read file = Ok data
      /\ fst (upload_file w token name data h2) = Ok meta
      /\ client w h3 (convert_request w token name) = Ok pdf_res
      /\ is_success pdf_res = true
      /\ client w h4 (delete_request w token name) = Ok del_res
      /\ Py.latin1 name = true
      /\ Py.encode_latin1 ("attachment; filename=" ++ name ++ ".pdf")%str
           = Some disposition
      /\ resp = {| body := content pdf_res;
                   status := 200;
                   media_type := "application/pdf";
                   raw_headers := [ (Py.b "content-disposition", disposition);
                                    (Py.b "content-type", Py.b "application/pdf") ] |}
      /\ h' = h4 ++ [Net (delete_request w token name)].
Proof.
  destruct (valid_filename (filename file)) eqn:Hv.
  2:{ rewrite (convert_invalid w file h Hv). split; [discriminate|].
      intros [? _]; discriminate. }
  rewrite (convert_run w file h Hv), get_access_token_run. cbv zeta. simpl fst.
  destruct (token_outcome w _) as [token|e].
  2:{ split; [discriminate|]. intros H; decompose [and ex] H; discriminate. }
  destruct (read file) as [data|e].
  2:{ split; [discriminate|]. intros H; decompose [and ex] H; discriminate. }
  rewrite <- (app_assoc h). simpl app.
  split.
  - destruct (upload_outcome w _) as [meta|e] eqn:Hu.
    2:{ destruct (delete_outcome _); discriminate. }
    destruct (client w _ (delete_request w token (filename file))) as [del_res|e] eqn:Hd;
      simpl; [|discriminate].
    destruct (client w _ (convert_request w token (filename file))) as [pdf_res|e] eqn:Hc;
      simpl; [|discriminate].
    destruct (is_success pdf_res) eqn:Hs; [|discriminate].
    rewrite ResponseFacts.pdf_response_eq.
    destruct (Py.encode_latin1 _) as [disposition|] eqn:He; [|discriminate].
    intros H. injection H as <- <-.
    split; [reflexivity|]. exists token, data, meta, pdf_res, del_res, disposition.
    rewrite upload_file_run. simpl fst. repeat split; try assumption.
    apply ResponseFacts.disposition_encodes. eauto.
  - intros (_ & token' & data' & meta & pdf_res & del_res & disposition
            & Ht & Hr & Hu & Hc & Hs & Hd & _ & He & -> & ->).
    injection Ht as <-. injection Hr as <-.
    rewrite upload_file_run in Hu. simpl in Hu.
    rewrite Hu, Hd, Hc. simpl. rewrite Hs.
    rewrite ResponseFacts.pdf_response_eq, He. reflexivity.
Qed.

(** C5. [get_access_token] makes one call, a form-encoded [POST] to
    the token endpoint carrying the client identifier, the client
    secret, the grant type [client_credentials] and the default scope
    of the target API.  It returns a value exactly when the call is
    answered with a success status and a body that decodes to an object
    with an [access_token] member, and the value is that member's; a
    failed call, a status that is not a success, a body that does not
    decode, a decoded value that is not an object and an object without
    the member each raise. *)
Theorem get_access_token_contract (h : history) :
  snd (get_access_token w h) =
    h ++ [Net (POST ("https://login.microsoftonline.com/" ++ Py.fmt_opt (TENANT_ID w)
                       ++ "/oauth2/v2.0/token")%str
                    [ ("client_id", CLIENT_ID w);
                      ("client_secret", CLIENT_SECRET w);
                      ("grant_type", Some "client_credentials");
                      ("scope", Some "https://graph.microsoft.com/.default") ])]
  /\ (forall v,
        fst (get_access_token w h) = Ok v <->
        exists res items,
          client w h (token_request w) = Ok res
          /\ is_success res = true
          /\ json_loads w (content res) = Some (JDict items)
          /\ dict_get items "access_token" = Some v)
  /\ (forall e,
        client w h (token_request w) = Raise e ->
        fst (get_access_token w h) = Raise e)
  /\ (forall res,
        client w h (token_request w) = Ok res ->
        (is_success res = false ->
         fst (get_access_token w h) = Raise (HTTPStatusError res))
        /\ (is_success res = true ->
            json_loads w (content res) = None ->
            fst (get_access_token w h) = Raise JSONDecodeError)
        /\ (forall items,
               is_success res = true ->
               json_loads w (content res) = Some (JDict items) ->
               dict_get items "access_token" = None ->
               fst (get_access_token w h) = Raise (KeyError "access_token"))
        /\ (forall j,
               is_success res = true ->
               json_loads w (content res) = Some j ->
               (forall items, j <> JDict items) ->
               fst (get_access_token w h) = Raise TypeError)).
Proof.
  rewrite get_access_token_run. simpl fst. simpl snd.
  split; [reflexivity|]. split; [|split].
  - intros v. unfold token_outcome. split.
    + destruct (client w h (token_request w)) as [res|e]; [|discriminate].
      destruct (is_success res) eqn:Hs; [|discriminate].
      destruct (json_loads w (content res)) as [j|] eqn:Hj; [|discriminate].
      destruct j; try discriminate.
      destruct (dict_get items "access_token") as [x|] eqn:Hg; [|discriminate].
      intros H. injection H as <-. now exists res, items.
    + intros (res & items & -> & -> & -> & ->). reflexivity.
  - intros e ->. reflexivity.
  - intros res ->. unfold token_outcome. repeat split.
    + now intros ->.
    + now intros -> ->.
    + now intros items -> -> ->.
    + intros j -> -> Hj. destruct j; try reflexivity. now destruct (Hj items).
Qed.

(** C8. [upload_file] decodes the body of the upload response as JSON
    and returns the decoded value.  Hence an upload answered with a
    success status and a body that does not decode raises, although the
    remote upload succeeded: the endpoint then never calls the
    conversion, still issues the delete, and ends with the decoding
    error (or with the error of the delete call, when that call
    raises). *)
Theorem upload_decodes_response
  (token : jvalue) (name : str) (data : list byte) (h : history) (res : Response) :
  client w h (upload_request w token name data) = Ok res ->
  is_success res = true ->
  (forall v,
      json_loads w (content res) = Some v ->
      upload_file w token name data h =
      (Ok v, h ++ [Net (upload_request w token name data)]))
  /\ (json_loads w (content res) = None ->
      upload_file w token name data h =
      (Raise JSONDecodeError, h ++ [Net (upload_request w token name data)])
      /\ forall file h0,
          valid_filename (filename file) = true ->
          filename file = name ->
          fst (get_access_token w h0) = Ok token ->
          read file = Ok data ->
          h = h0 ++ [Net (token_request w); FileRead] ->
          snd (convert w file h0) =
            h ++ [Net (upload_request w token name data);
                  Net (delete_request w token name)]
          /\ fst (convert w file h0) =
             match client w (h ++ [Net (upload_request w token name data)])
                          (delete_request w token name) with
             | Ok _ => Raise JSONDecodeError
             | Raise e => Raise e
             end).
Proof.
  intros Hc Hs. rewrite upload_file_run, Hc. simpl. rewrite Hs. split.
  - now intros v ->.
  - intros Hj. rewrite Hj. split; [reflexivity|].
    intros file h0 Hv Hn Ht Hr ->.
    rewrite get_access_token_run in Ht. simpl in Ht.
    rewrite (convert_run w file h0 Hv). cbv zeta. rewrite Ht, Hr, Hn.
    rewrite <- (app_assoc h0). simpl app.
    rewrite Hc. simpl. rewrite Hs, Hj.
    rewrite <- !app_assoc. simpl app. split; [reflexivity|].
    now destruct (client w _ (delete_request w token name)).
Qed.

(** C10. Validation looks at the ending of the lowered name and at
    nothing else.  A name is accepted exactly when it is some
    characters, possibly none, followed by an ending whose lower case
    is [.docx] or [.pptx]: the bare extension [.docx] and [a.b.DOCX]
    are accepted, and an accepted request goes on to the token request.
    The empty name is rejected with the 400 validation error. *)
Theorem validation_checks_suffix_only :
  (forall name,
      valid_filename name = true <->
      exists p e, name = (p ++ e)%str /\
                  (Py.lower e = ".docx" \/ Py.lower e = ".pptx"))
  /\ valid_filename ".docx" = true
  /\ valid_filename "a.b.DOCX" = true
  /\ valid_filename "" = false
  /\ (forall file h,
        valid_filename (filename file) = true ->
        exists rest, snd (convert w file h) = h ++ Net (token_request w) :: rest)
  /\ (forall rd h,
        convert w (mkUploadFile "" rd) h =
        (Raise (HTTPException 400 "Only DOCX or PPTX supported"), h)).
Proof.
  split; [exact PyFacts.valid_filename_spec|].
  do 3 (split; [reflexivity|]). split.
  - intros file h Hv. rewrite (convert_run w file h Hv). cbv zeta.
    destruct (token_outcome w _); [|now exists []].
    destruct (read file); [destruct (upload_outcome w _)|];
      simpl snd; rewrite <- !app_assoc; simpl app; eauto.
  - intros rd h. now apply convert_invalid.
Qed.

(** C3, amended.  Whatever response the delete call receives, of a
    success status or not, [delete_file] drops it and returns, and the
    endpoint ends as the upload and conversion steps decide, never as
    the delete response would: with their error when they failed, and
    when they succeeded with what the construction of the PDF response
    gives, which for a file name all of whose characters are below
    U+0100 is the response carrying the converted bytes. *)
Theorem delete_response_is_ignored
  (token : jvalue) (name : str) (h2 : history) (del_res : Response) :
  client w h2 (delete_request w token name) = Ok del_res ->
  delete_file w token name h2 = (Ok tt, h2 ++ [Net (delete_request w token name)])
  /\ forall file h data r,
      valid_filename (filename file) = true ->
      filename file = name ->
      fst (get_access_token w h) = Ok token ->
      read file = Ok data ->
      upload_then_convert w token name data (h ++ [Net (token_request w); FileRead])
        = (r, h2) ->
      convert w file h =
      (match r with
       | Ok pdf_bytes => pdf_response name pdf_bytes
       | Raise e => Raise e
       end,
       h2 ++ [Net (delete_request w token name)])
      /\ (forall pdf_bytes,
            r = Ok pdf_bytes ->
            Py.latin1 name = true ->
            exists resp,
              fst (convert w file h) = Ok resp
              /\ body resp = pdf_bytes
              /\ status resp = 200%Z)
      /\ (forall e, r = Raise e -> fst (convert w file h) = Raise e).
Proof.
  intros Hd. rewrite delete_file_run, Hd. split; [reflexivity|].
  intros file h data r Hv Hn Ht Hr Hb.
  rewrite get_access_token_run in Ht. simpl in Ht.
  rewrite (convert_run w file h Hv). cbv zeta. rewrite Ht, Hr, Hn.
  rewrite <- (app_assoc h). simpl app.
  destruct (upload_outcome w _) as [v|e] eqn:Hu.
  - erewrite upload_then_convert_ok in Hb by (rewrite upload_file_run; exact Hu).
    rewrite convert_to_pdf_run in Hb. injection Hb as <- <-.
    rewrite Hd. simpl. split; [|split].
    + now destruct (convert_outcome _).
    + intros pdf_bytes -> Hl. rewrite ResponseFacts.pdf_response_eq.
      apply ResponseFacts.disposition_encodes in Hl as [d ->]. eauto.
    + now intros e ->.
  - erewrite upload_then_convert_raise in Hb by (rewrite upload_file_run; exact Hu).
    injection Hb as <- <-. rewrite Hd. simpl. split; [reflexivity|].
    split; [discriminate|]. intros e' H. simpl. congruence.
Qed.

End Contract.

(** ** The contract at concrete requests *)

Lemma invalid_filename_rejected_witness :
  ~ (exists p e, filename Demo.image = (p ++ e)%str /\
                 (Py.lower e = ".docx" \/ Py.lower e = ".pptx"))
  /\ convert Demo.happy Demo.image [] =
     (Raise (HTTPException 400 "Only DOCX or PPTX supported"), [])
  /\ calls (snd (convert Demo.happy Demo.image [])) = calls [].
Proof.
  assert (H : ~ (exists p e, filename Demo.image = (p ++ e)%str /\
                             (Py.lower e = ".docx" \/ Py.lower e = ".pptx"))).
  { intros H. apply PyFacts.valid_filename_spec in H. discriminate H. }
  split; [exact H|]. exact (invalid_filename_rejected Demo.happy Demo.image [] H).
Defined.

Lemma token_failure_is_terminal_witness :
  let e := HTTPStatusError (mkResponse 401 (Py.b "{}")) in
  valid_filename (filename Demo.report) = true
  /\ fst (get_access_token Demo.no_token []) = Raise e
  /\ convert Demo.no_token Demo.report [] =
       (Raise e, [] ++ [Net (token_request Demo.no_token)])
  /\ count is_put (calls [Net (token_request Demo.no_token)]) = 0
  /\ count is_get (calls [Net (token_request Demo.no_token)]) = 0
  /\ count is_delete (calls [Net (token_request Demo.no_token)]) = 0.
Proof.
  cbv zeta. split; [reflexivity|]. split; [reflexivity|].
  apply (token_failure_is_terminal Demo.no_token Demo.report []); reflexivity.
Defined.

Lemma token_acquired_before_read_witness :
  valid_filename (filename Demo.unreadable) = true
  /\ (exists rest,
        snd (convert Demo.happy Demo.unreadable []) =
          [] ++ Net (token_request Demo.happy) :: rest /\
        (rest = [] \/
         exists token rest',
           fst (get_access_token Demo.happy []) = Ok token /\ rest = FileRead :: rest'))
  /\ (forall token h1 e,
        get_access_token Demo.happy [] = (Ok token, h1) ->
        read Demo.unreadable = Raise e ->
        convert Demo.happy Demo.unreadable [] =
        (Raise e, [] ++ [Net (token_request Demo.happy); FileRead])).
Proof.
  split; [reflexivity|].
  apply (token_acquired_before_read Demo.happy Demo.unreadable []). reflexivity.
Defined.

Lemma outbound_call_order_witness :
  valid_filename (filename Demo.report) = true
  /\ calls (snd (convert Demo.happy Demo.report [])) =
       [ token_request Demo.happy;
         upload_request Demo.happy Demo.tok "report.docx" (Py.b "X");
         convert_request Demo.happy Demo.tok "report.docx";
         delete_request Demo.happy Demo.tok "report.docx" ]
  /\ calls (snd (convert Demo.html_upload Demo.report [])) =
       [ token_request Demo.html_upload;
         upload_request Demo.html_upload Demo.tok "report.docx" (Py.b "X");
         delete_request Demo.html_upload Demo.tok "report.docx" ].
Proof.
  split; [reflexivity|]. split.
  - destruct (outbound_call_order Demo.happy Demo.report [] eq_refl)
      as (evs & Hs & _ & _ & Hp & _).
    destruct (Hp Demo.tok (Py.b "X") eq_refl eq_refl) as [Hok _].
    rewrite Hs. exact (Hok (JDict []) eq_refl).
  - destruct (outbound_call_order Demo.html_upload Demo.report [] eq_refl)
      as (evs & Hs & _ & _ & Hp & _).
    destruct (Hp Demo.tok (Py.b "X") eq_refl eq_refl) as [_ Hfail].
    rewrite Hs. exact (proj1 (Hfail JSONDecodeError eq_refl)).
Defined.

Lemma drive_calls_same_name_and_token_witness :
  let w := Demo.happy in
  let evs := [ Net (token_request w); FileRead;
               Net (upload_request w Demo.tok "report.docx" (Py.b "X"));
               Net (convert_request w Demo.tok "report.docx");
               Net (delete_request w Demo.tok "report.docx") ] in
  let rq := convert_request w Demo.tok "report.docx" in
  snd (convert w Demo.report []) = [] ++ evs
  /\ In rq (calls evs)
  /\ (rq = token_request w
      \/ exists token data,
          let name := filename Demo.report in
          let auth := ("Authorization", ("Bearer " ++ fmt w token)%str) in
          fst (get_access_token w []) = Ok token
          /\ read Demo.report = Ok data
          /\ (rq = PUT (BASE_URL w ++ "/root:/" ++ name ++ ":/content")%str
                       [auth; ("Content-Type", "application/octet-stream")] data
              \/ rq = GET (BASE_URL w ++ "/root:/" ++ name ++ ":/content?format=pdf")%str
                          [auth]
              \/ rq = DELETE (BASE_URL w ++ "/root:/" ++ name)%str [auth])).
Proof.
  cbv zeta. split; [reflexivity|]. split; [simpl; tauto|].
  apply (drive_calls_same_name_and_token Demo.happy Demo.report []
           [ Net (token_request Demo.happy); FileRead;
             Net (upload_request Demo.happy Demo.tok "report.docx" (Py.b "X"));
             Net (convert_request Demo.happy Demo.tok "report.docx");
             Net (delete_request Demo.happy Demo.tok "report.docx") ]).
  - reflexivity.
  - simpl. tauto.
Defined.

(** The round trip of [report.docx] with content [b"X"]. *)
Lemma success_response_witness :
  convert Demo.happy Demo.report [] =
  (Ok {| body := Py.b "%PDF-1.7";
         status := 200;
         media_type := "application/pdf";
         raw_headers :=
           [ (Py.b "content-disposition", Py.b "attachment; filename=report.docx.pdf");
             (Py.b "content-type", Py.b "application/pdf") ] |},
   [ Net (token_request Demo.happy); FileRead;
     Net (upload_request Demo.happy Demo.tok "report.docx" (Py.b "X"));
     Net (convert_request Demo.happy Demo.tok "report.docx");
     Net (delete_request Demo.happy Demo.tok "report.docx") ]).
Proof.
  apply (proj2 (success_response Demo.happy Demo.report [] _ _)).
  split; [reflexivity|].
  exists Demo.tok, (Py.b "X"), (JDict []),
    (mkResponse 200 (Py.b "%PDF-1.7")), (mkResponse 204 []),
    (Py.b "attachment; filename=report.docx.pdf").
  cbv zeta. repeat split; reflexivity.
Defined.

(** C4, as stated, fails: for a file name with a character from
    U+0100 on, every call succeeds, the delete included, and the
    endpoint raises the encoding error instead of returning the
    response. *)
Lemma success_path_without_response :
  let w := Demo.happy in
  let name := filename Demo.wide in
  let h2 := [Net (token_request w); FileRead] in
  let h3 := h2 ++ [Net (upload_request w Demo.tok name (Py.b "X"))] in
  let h4 := h3 ++ [Net (convert_request w Demo.tok name)] in
  valid_filename name = true
  /\ fst (get_access_token w []) = Ok Demo.tok
  /\ read Demo.wide = Ok (Py.b "X")
  /\ fst (upload_file w Demo.tok name (Py.b "X") h2) = Ok (JDict [])
  /\ fst (convert_to_pdf w Demo.tok name h3) = Ok (Py.b "%PDF-1.7")
  /\ fst (delete_file w Demo.tok name h4) = Ok tt
  /\ convert w Demo.wide [] =
       (Raise UnicodeEncodeError, h4 ++ [Net (delete_request w Demo.tok name)]).
Proof. cbv zeta. repeat split; reflexivity. Qed.

Lemma get_access_token_contract_witness :
  fst (get_access_token Demo.happy []) = Ok (JStr "tok")
  /\ fst (get_access_token Demo.no_token []) =
       Raise (HTTPStatusError (mkResponse 401 (Py.b "{}"))).
Proof.
  split.
  - apply (proj1 (proj2 (get_access_token_contract Demo.happy []))).
    exists (mkResponse 200 (Py.b Demo.token_json)), [("access_token", JStr "tok")].
    repeat split; reflexivity.
  - apply (proj2 (proj2 (proj2 (get_access_token_contract Demo.no_token [])))
             (mkResponse 401 (Py.b "{}"))); reflexivity.
Defined.

Lemma upload_decodes_response_witness :
  let w := Demo.html_upload in
  let h := [Net (token_request w); FileRead] in
  let res := mkResponse 201 (Py.b "<html/>") in
  let up := upload_request w Demo.tok "report.docx" (Py.b "X") in
  client w h up = Ok res
  /\ is_success res = true
  /\ json_loads w (content res) = None
  /\ upload_file w Demo.tok "report.docx" (Py.b "X") h = (Raise JSONDecodeError, h ++ [Net up])
  /\ snd (convert w Demo.report []) =
       h ++ [Net up; Net (delete_request w Demo.tok "report.docx")]
  /\ fst (convert w Demo.report []) = Raise JSONDecodeError.
Proof.
  cbv zeta. do 3 (split; [reflexivity|]).
  destruct (upload_decodes_response Demo.html_upload Demo.tok "report.docx" (Py.b "X")
              [Net (token_request Demo.html_upload); FileRead]
              (mkResponse 201 (Py.b "<html/>")) eq_refl eq_refl) as [_ H].
  destruct (H eq_refl) as [Hup Hrun]. split; [exact Hup|].
  exact (Hrun Demo.report [] eq_refl eq_refl eq_refl eq_refl eq_refl).
Defined.

(** C3, as stated, fails: when the delete call gets no response, the
    error of the HTTP client leaves [delete_file], and the endpoint
    answers with it although upload and conversion succeeded. *)
Lemma delete_error_not_swallowed :
  fst (upload_then_convert Demo.delete_offline Demo.tok "report.docx" (Py.b "X")
         [Net (token_request Demo.delete_offline); FileRead])
    = Ok (Py.b "%PDF-1.7")
  /\ fst (delete_file Demo.delete_offline Demo.tok "report.docx" [])
      = Raise (RequestError "ConnectError")
  /\ fst (convert Demo.delete_offline Demo.report [])
      = Raise (RequestError "ConnectError").
Proof. repeat split; reflexivity. Qed.

Lemma delete_response_is_ignored_witness :
  let w := Demo.delete_404 in
  let h2 := [ Net (token_request w); FileRead;
              Net (upload_request w Demo.tok "report.docx" (Py.b "X"));
              Net (convert_request w Demo.tok "report.docx") ] in
  client w h2 (delete_request w Demo.tok "report.docx") = Ok (mkResponse 404 (Py.b "{}"))
  /\ delete_file w Demo.tok "report.docx" h2 =
       (Ok tt, h2 ++ [Net (delete_request w Demo.tok "report.docx")])
  /\ convert w Demo.report [] =
       (Ok Demo.report_pdf,
        h2 ++ [Net (delete_request w Demo.tok "report.docx")]).
Proof.
  cbv zeta. split; [reflexivity|].
  destruct (delete_response_is_ignored Demo.delete_404 Demo.tok "report.docx"
              [ Net (token_request Demo.delete_404); FileRead;
                Net (upload_request Demo.delete_404 Demo.tok "report.docx" (Py.b "X"));
                Net (convert_request Demo.delete_404 Demo.tok "report.docx") ]
              (mkResponse 404 (Py.b "{}")) eq_refl) as [Hd Hc].
  split; [exact Hd|].
  exact (proj1 (Hc Demo.report [] (Py.b "X") (Ok (Py.b "%PDF-1.7"))
                   eq_refl eq_refl eq_refl eq_refl eq_refl)).
Defined.

(** * Further properties of the code *)

Section Coverage.

Variable w : World.

(** X1. No call is repeated.  A request makes one token request when
    its name is accepted and none otherwise; it uploads, converts and
    deletes at most once each, and reads the content at most once; it
    deletes as often as it uploads, and converts only if it uploaded.
    A request makes four outbound calls at most. *)
Theorem no_call_is_repeated (file : UploadFile) (h : history) :
  exists evs,
    snd (convert w file h) = h ++ evs
    /\ count is_post (calls evs) = (if valid_filename (filename file) then 1 else 0)
    /\ count is_put (calls evs) <= 1
    /\ count is_get (calls evs) <= count is_put (calls evs)
    /\ count is_delete (calls evs) = count is_put (calls evs)
    /\ reads evs <= 1
    /\ List.length (calls evs) <= 4.
Proof.
  destruct (valid_filename (filename file)) eqn:Hv.
  2:{ exists []. rewrite (convert_invalid w file h Hv), app_nil_r.
      unfold count; simpl. repeat split; lia. }
  rewrite (convert_run w file h Hv). cbv zeta.
  destruct (token_outcome w _) as [token|e].
  2:{ eexists. split; [reflexivity|]. unfold count; simpl. repeat split; lia. }
  destruct (read file) as [data|e].
  2:{ eexists. split; [now rewrite <- app_assoc|]. unfold count; simpl. repeat split; lia. }
  destruct (upload_outcome w _); simpl snd; rewrite <- !app_assoc; simpl app;
    (eexists; split; [reflexivity|]); unfold count; simpl; repeat split; lia.
Qed.

(** X2. What gates each drive call.  The upload is attempted exactly
    when the name is accepted, a token was obtained and the content was
    read; the conversion is requested exactly when, moreover, the upload
    succeeded; the delete is issued exactly when the upload was
    attempted. *)
Theorem drive_calls_are_gated (file : UploadFile) (h : history) :
  exists evs,
    let name := filename file in
    snd (convert w file h) = h ++ evs
    /\ (existsb is_put (calls evs) = true <->
        valid_filename name = true
        /\ exists token data,
            fst (get_access_token w h) = Ok token /\ read file = Ok data)
    /\ (existsb is_get (calls evs) = true <->
        valid_filename name = true
        /\ exists token data meta,
            fst (get_access_token w h) = Ok token
            /\ read file = Ok data
            /\ fst (upload_file w token name data
                      (h ++ [Net (token_request w); FileRead])) = Ok meta)
    /\ existsb is_delete (calls evs) = existsb is_put (calls evs).
Proof.
  cbv zeta. destruct (valid_filename (filename file)) eqn:Hv.
  2:{ exists []. rewrite (convert_invalid w file h Hv), app_nil_r. simpl.
      repeat split; try discriminate; intros [? _]; discriminate. }
  rewrite (convert_run w file h Hv), get_access_token_run. cbv zeta. simpl fst.
  destruct (token_outcome w _) as [token|e].
  2:{ eexists. split; [reflexivity|]. simpl.
      repeat split; try discriminate;
        intros H; decompose [and ex] H; discriminate. }
  destruct (read file) as [data|e].
  2:{ eexists. split; [now rewrite <- app_assoc|]. simpl.
      repeat split; try discriminate;
        intros H; decompose [and ex] H; discriminate. }
  rewrite <- (app_assoc h). simpl app.
  destruct (upload_outcome w _) as [meta|e] eqn:Hu; simpl snd;
    rewrite <- !app_assoc; simpl app;
    (eexists; split; [reflexivity|]); simpl.
  - repeat split; eauto.
    exists token, data, meta. rewrite upload_file_run. simpl. now rewrite Hu.
  - repeat split; eauto; try discriminate.
    intros (_ & token' & data' & meta & Ht & Hr & Hm).
    injection Ht as <-. injection Hr as <-.
    rewrite upload_file_run in Hm. simpl in Hm. rewrite Hu in Hm. discriminate.
Qed.

(** X3. An exception of the delete call replaces the outcome.  When
    the delete call raises, [delete_file] raises the same exception,
    and the endpoint ends with it whatever the upload and the
    conversion gave: a PDF that was obtained is not returned, and an
    earlier error is not the one the caller sees. *)
Theorem delete_exception_replaces_outcome
  (token : jvalue) (name : str) (h2 : history) (e : exn) :
  client w h2 (delete_request w token name) = Raise e ->
  delete_file w token name h2 = (Raise e, h2 ++ [Net (delete_request w token name)])
  /\ forall file h data (r : result (list byte)),
      valid_filename (filename file) = true ->
      filename file = name ->
      fst (get_access_token w h) = Ok token ->
      read file = Ok data ->
      upload_then_convert w token name data (h ++ [Net (token_request w); FileRead])
        = (r, h2) ->
      convert w file h = (Raise e, h2 ++ [Net (delete_request w token name)]).
Proof.
  intros Hd. rewrite delete_file_run, Hd. split; [reflexivity|].
  intros file h data r Hv Hn Ht Hr Hb.
  rewrite get_access_token_run in Ht. simpl in Ht.
  rewrite (convert_run w file h Hv). cbv zeta. rewrite Ht, Hr, Hn.
  rewrite <- (app_assoc h). simpl app.
  destruct (upload_outcome w _) as [v|e0] eqn:Hu.
  - erewrite upload_then_convert_ok in Hb by (rewrite upload_file_run; exact Hu).
    rewrite convert_to_pdf_run in Hb. injection Hb as _ <-.
    now rewrite Hd.
  - erewrite upload_then_convert_raise in Hb by (rewrite upload_file_run; exact Hu).
    injection Hb as _ <-. now rewrite Hd.
Qed.

(** X7. A refusal of the drive reaches the caller as it came.  When
    the upload, or after a successful upload the conversion, is
    answered with a status that is not a success, and the delete call
    is answered, the endpoint raises the status error that carries that
    very response; the delete was issued before the error left. *)
Theorem upstream_refusal_reaches_caller
  (file : UploadFile) (h : history) (token : jvalue) (data : list byte)
  (res del_res : Response) :
  let name := filename file in
  let h2 := h ++ [Net (token_request w); FileRead] in
  let h3 := h2 ++ [Net (upload_request w token name data)] in
  let h4 := h3 ++ [Net (convert_request w token name)] in
  valid_filename name = true ->
  fst (get_access_token w h) = Ok token ->
  read file = Ok data ->
  is_success res = false ->
  (client w h2 (upload_request w token name data) = Ok res ->
   client w h3 (delete_request w token name) = Ok del_res ->
   convert w file h =
   (Raise (HTTPStatusError res), h3 ++ [Net (delete_request w token name)]))
  /\ (forall meta,
        fst (upload_file w token name data h2) = Ok meta ->
        client w h3 (convert_request w token name) = Ok res ->
        client w h4 (delete_request w token name) = Ok del_res ->
        convert w file h =
        (Raise (HTTPStatusError res), h4 ++ [Net (delete_request w token name)])).
Proof.
  cbv zeta. intros Hv Ht Hr Hs.
  rewrite get_access_token_run in Ht. simpl in Ht.
  rewrite (convert_run w file h Hv). cbv zeta. rewrite Ht, Hr.
  rewrite <- !app_assoc. simpl app. split.
  - intros Hu Hd. rewrite Hu. simpl. rewrite Hs, Hd. reflexivity.
  - intros meta Hu Hc Hd. rewrite upload_file_run in Hu. simpl in Hu.
    rewrite Hu, Hd, Hc. simpl. rewrite Hs. reflexivity.
Qed.

(** X6. The configuration is not checked.  With [TENANT_ID] and
    [GRAPH_USER_ID] unset, an accepted request still makes its calls:
    the token request goes to the token URL of the tenant [None], with
    whatever client identifier and secret there are, and every drive
    call goes under the drive of the user [None]. *)
Theorem unset_configuration_is_not_checked (file : UploadFile) (h : history) :
  TENANT_ID w = None ->
  GRAPH_USER_ID w = None ->
  valid_filename (filename file) = true ->
  exists rest,
    snd (convert w file h) =
      h ++ Net (POST "https://login.microsoftonline.com/None/oauth2/v2.0/token"
                     [ ("client_id", CLIENT_ID w);
                       ("client_secret", CLIENT_SECRET w);
                       ("grant_type", Some "client_credentials");
                       ("scope", Some "https://graph.microsoft.com/.default") ])
        :: rest
    /\ forall rq,
        In rq (calls rest) ->
        exists tail,
          request_url rq =
          ("https://graph.microsoft.com/v1.0/users/None/drive/root:/" ++ tail)%str.
Proof.
  intros HT HG Hv. rewrite (convert_run w file h Hv). cbv zeta.
  assert (Htr : token_request w =
                POST "https://login.microsoftonline.com/None/oauth2/v2.0/token"
                     [ ("client_id", CLIENT_ID w);
                       ("client_secret", CLIENT_SECRET w);
                       ("grant_type", Some "client_credentials");
                       ("scope", Some "https://graph.microsoft.com/.default") ]).
  { unfold token_request, TOKEN_URL. now rewrite HT. }
  rewrite <- Htr.
  assert (Hurl : forall token name data rq,
             In rq [ upload_request w token name data;
                     convert_request w token name;
                     delete_request w token name ] ->
             exists tail,
               request_url rq =
               ("https://graph.microsoft.com/v1.0/users/None/drive/root:/" ++ tail)%str).
  { intros token name data rq Hin.
    unfold upload_request, convert_request, delete_request, BASE_URL in Hin.
    rewrite HG in Hin. simpl in Hin.
    destruct Hin as [<-|[<-|[<-|[]]]]; simpl; eexists; reflexivity. }
  destruct (token_outcome w _) as [token|e].
  2:{ exists []. split; [reflexivity|]. intros rq []. }
  destruct (read file) as [data|e].
  2:{ exists [FileRead]. rewrite <- app_assoc. split; [reflexivity|]. intros rq []. }
  destruct (upload_outcome w _); simpl snd; rewrite <- !app_assoc; simpl app;
    (eexists; split; [reflexivity|]); simpl; intros rq Hin;
    apply (Hurl token (filename file) data); simpl; tauto.
Qed.

End Coverage.

(** ** More on strings: lengths, and what [endswith] looks at *)

Module PyMore.

Lemma length_append (p s : str) :
  Py.len (p ++ s) = Py.len p + Py.len s.
Proof.
  induction p as [|c p IH]; simpl; [reflexivity | now rewrite IH].
Qed.

Lemma append_assoc (p q s : str) :
  ((p ++ q) ++ s)%str = (p ++ (q ++ s))%str.
Proof.
  induction p as [|c p IH]; simpl; [reflexivity | now rewrite IH].
Qed.

Lemma lower_length (s : str) :
  Py.len (Py.lower s) = Py.len s.
Proof.
  induction s as [|c s IH]; simpl; [reflexivity | now rewrite IH].
Qed.

(** A str that ends with a suffix is at least as long. *)
Lemma endswith_length (s suffix : str) :
  Py.endswith s suffix = true -> Py.len suffix <= Py.len s.
Proof.
  intros H. apply PyFacts.endswith_spec in H as [p ->].
  rewrite length_append. lia.
Qed.

(** [endswith] does not look before the last characters: a prefix put
    before a str at least as long as the suffix changes nothing. *)
Lemma endswith_app (p e suffix : str) :
  Py.len suffix <= Py.len e ->
  Py.endswith (p ++ e) suffix = Py.endswith e suffix.
Proof.
  intros Hl. induction p as [|c p IH]; [reflexivity|].
  change (Py.endswith (Str c p ++ e) suffix)
    with ((Str c (p ++ e) =? suffix)%str || Py.endswith (p ++ e) suffix).
  rewrite IH.
  destruct (PyFacts.str_eqb_spec (Str c (p ++ e)) suffix) as [E|_]; [|reflexivity].
  exfalso. apply (f_equal Py.len) in E. simpl in E.
  rewrite length_append in E. lia.
Qed.

End PyMore.

Section Names.

Variable w : World.

(** A response is returned only for an accepted name, and it is the
    PDF response for that name. *)
Lemma convert_ok_inv (file : UploadFile) (h h' : history) (resp : StreamingResponse) :
  convert w file h = (Ok resp, h') ->
  valid_filename (filename file) = true
  /\ exists pdf_bytes, pdf_response (filename file) pdf_bytes = Ok resp.
Proof.
  destruct (valid_filename (filename file)) eqn:Hv.
  2:{ rewrite (convert_invalid w file h Hv). discriminate. }
  rewrite (convert_run w file h Hv). cbv zeta.
  destruct (token_outcome w _); [|discriminate].
  destruct (read file); [|discriminate].
  destruct (upload_outcome w _).
  - destruct (delete_outcome _); [|discriminate].
    destruct (convert_outcome _) as [pdf|]; [|discriminate].
    intros H. injection H as H _. split; [reflexivity|]. now exists pdf.
  - destruct (delete_outcome _); discriminate.
Qed.

(** X4. The name of the download keeps the extension of the upload.
    Every response the endpoint returns carries two headers:
    [content-disposition], the Latin-1 bytes of an attachment named
    after the uploaded file with [.pdf] appended, so that its lower
    case ends in [.docx.pdf] or [.pptx.pdf] (the original extension is
    not replaced), and [content-type], [application/pdf]. *)
Theorem download_name_keeps_extension
  (file : UploadFile) (h h' : history) (resp : StreamingResponse) :
  convert w file h = (Ok resp, h') ->
  exists v p disposition,
    raw_headers resp = [ (Py.b "content-disposition", disposition);
                         (Py.b "content-type", Py.b "application/pdf") ]
    /\ v = ("attachment; filename=" ++ filename file ++ ".pdf")%str
    /\ Py.encode_latin1 v = Some disposition
    /\ (Py.lower v = (p ++ ".docx.pdf")%str
        \/ Py.lower v = (p ++ ".pptx.pdf")%str).
Proof.
  intros H. apply convert_ok_inv in H as (Hv & pdf & H).
  rewrite ResponseFacts.pdf_response_eq in H.
  destruct (Py.encode_latin1 _) as [d|] eqn:He; [|discriminate].
  injection H as <-.
  eexists. unfold valid_filename, Py.endswith_any in Hv. cbn [existsb] in Hv.
  rewrite orb_false_r, orb_true_iff, !PyFacts.endswith_spec in Hv.
  destruct Hv as [[q Hq]|[q Hq]];
    exists ("attachment; filename=" ++ q)%str, d;
    (split; [reflexivity|]); (split; [reflexivity|]); (split; [exact He|]);
    rewrite !PyFacts.lower_app, Hq;
    change (Py.lower "attachment; filename=") with "attachment; filename=";
    change (Py.lower ".pdf") with ".pdf";
    rewrite !PyMore.append_assoc; [left|right]; reflexivity.
Qed.

(** X5. Validation reads the last five characters of the name and
    nothing before them: whatever is put before an ending of five
    characters or more leaves the verdict as it is, so a directory
    part, dots or spaces before the extension are never a reason to
    reject; and a name of fewer than five characters is never
    accepted. *)
Theorem validation_reads_last_five_characters :
  (forall p e,
      5 <= Py.len e ->
      valid_filename (p ++ e) = valid_filename e)
  /\ (forall name,
        valid_filename name = true -> 5 <= Py.len name).
Proof.
  split.
  - intros p e Hl. unfold valid_filename, Py.endswith_any. cbn [existsb].
    rewrite PyFacts.lower_app.
    rewrite !PyMore.endswith_app by (rewrite PyMore.lower_length; simpl; lia).
    reflexivity.
  - intros name Hv. unfold valid_filename, Py.endswith_any in Hv.
    cbn [existsb] in Hv. rewrite orb_false_r, orb_true_iff in Hv.
    rewrite <- (PyMore.lower_length name).
    destruct Hv as [H|H]; apply PyMore.endswith_length in H; exact H.
Qed.

End Names.

Section Sequence.

Variable w : World.

(** The calls of an accepted request after its token request: none
    when no token was obtained, and otherwise calls that carry the
    token this request obtained. *)
Lemma calls_carry_own_token (file : UploadFile) (h : history) :
  valid_filename (filename file) = true ->
  exists rest,
    snd (convert w file h) = h ++ Net (token_request w) :: rest
    /\ (forall e, fst (get_access_token w h) = Raise e ->
                  fst (convert w file h) = Raise e /\ rest = [])
    /\ (forall rq, In rq (calls rest) ->
                   exists token,
                     fst (get_access_token w h) = Ok token
                     /\ In (bearer w token) (request_headers rq)).
Proof.
  intros Hv. rewrite (convert_run w file h Hv), get_access_token_run.
  cbv zeta. simpl fst.
  destruct (token_outcome w _) as [token|e].
  2:{ exists []. split; [reflexivity|]. split.
      - intros e' H. injection H as <-. now split.
      - intros rq []. }
  destruct (read file) as [data|e].
  2:{ exists [FileRead]. rewrite <- app_assoc. split; [reflexivity|]. split.
      - discriminate.
      - intros rq []. }
  destruct (upload_outcome w _); simpl snd; rewrite <- !app_assoc; simpl app;
    (eexists; split; [reflexivity|]); (split; [discriminate|]);
    simpl; intros rq Hin; exists token; (split; [reflexivity|]);
    repeat (destruct Hin as [<-|Hin]; [simpl; tauto|]); destruct Hin.
Qed.

(** X8. No token is kept from one request to the next.  Of two
    accepted requests handled one after the other, the second makes a
    token request of its own; when that request fails the second
    request fails with its error and touches the drive not at all, a
    token obtained by the first notwithstanding; and when it succeeds
    every drive call of the second request carries the token it
    returned. *)
Theorem token_is_not_reused (first second : UploadFile) (h : history) :
  valid_filename (filename first) = true ->
  valid_filename (filename second) = true ->
  let h1 := snd (convert w first h) in
  (exists rest1, h1 = h ++ Net (token_request w) :: rest1)
  /\ exists rest,
      snd (convert w second h1) = h1 ++ Net (token_request w) :: rest
      /\ (forall e, fst (get_access_token w h1) = Raise e ->
                    fst (convert w second h1) = Raise e /\ rest = [])
      /\ (forall rq, In rq (calls rest) ->
                     exists token,
                       fst (get_access_token w h1) = Ok token
                       /\ In (bearer w token) (request_headers rq)).
Proof.
  intros H1 H2. cbv zeta. split.
  - destruct (calls_carry_own_token first h H1) as (rest1 & E & _). eauto.
  - exact (calls_carry_own_token second _ H2).
Qed.

End Sequence.

(** ** The further properties at concrete requests *)

Lemma delete_exception_replaces_outcome_witness :
  let w := Demo.delete_offline in
  let h2 := [ Net (token_request w); FileRead;
              Net (upload_request w Demo.tok "report.docx" (Py.b "X"));
              Net (convert_request w Demo.tok "report.docx") ] in
  client w h2 (delete_request w Demo.tok "report.docx") = Raise (RequestError "ConnectError")
  /\ delete_file w Demo.tok "report.docx" h2 =
       (Raise (RequestError "ConnectError"),
        h2 ++ [Net (delete_request w Demo.tok "report.docx")])
  /\ convert w Demo.report [] =
       (Raise (RequestError "ConnectError"),
        h2 ++ [Net (delete_request w Demo.tok "report.docx")]).
Proof.
  cbv zeta. split; [reflexivity|].
  destruct (delete_exception_replaces_outcome Demo.delete_offline Demo.tok "report.docx"
              [ Net (token_request Demo.delete_offline); FileRead;
                Net (upload_request Demo.delete_offline Demo.tok "report.docx" (Py.b "X"));
                Net (convert_request Demo.delete_offline Demo.tok "report.docx") ]
              (RequestError "ConnectError") eq_refl) as [Hd Hc].
  split; [exact Hd|].
  exact (Hc Demo.report [] (Py.b "X") (Ok (Py.b "%PDF-1.7"))
            eq_refl eq_refl eq_refl eq_refl eq_refl).
Defined.

Lemma upstream_refusal_reaches_caller_witness :
  convert Demo.upload_refused Demo.report [] =
    (Raise (HTTPStatusError (mkResponse 401 (Py.b "{}"))),
     [ Net (token_request Demo.upload_refused); FileRead;
       Net (upload_request Demo.upload_refused Demo.tok "report.docx" (Py.b "X"));
       Net (delete_request Demo.upload_refused Demo.tok "report.docx") ])
  /\ convert Demo.conversion_refused Demo.report [] =
    (Raise (HTTPStatusError (mkResponse 404 (Py.b "{}"))),
     [ Net (token_request Demo.conversion_refused); FileRead;
       Net (upload_request Demo.conversion_refused Demo.tok "report.docx" (Py.b "X"));
       Net (convert_request Demo.conversion_refused Demo.tok "report.docx");
       Net (delete_request Demo.conversion_refused Demo.tok "report.docx") ]).
Proof.
  split.
  - exact (proj1 (upstream_refusal_reaches_caller Demo.upload_refused Demo.report []
                    Demo.tok (Py.b "X") (mkResponse 401 (Py.b "{}")) (mkResponse 204 [])
                    eq_refl eq_refl eq_refl eq_refl) eq_refl eq_refl).
  - exact (proj2 (upstream_refusal_reaches_caller Demo.conversion_refused Demo.report []
                    Demo.tok (Py.b "X") (mkResponse 404 (Py.b "{}")) (mkResponse 204 [])
                    eq_refl eq_refl eq_refl eq_refl) (JDict []) eq_refl eq_refl eq_refl).
Defined.

Lemma unset_configuration_is_not_checked_witness :
  TENANT_ID Demo.unconfigured = None
  /\ GRAPH_USER_ID Demo.unconfigured = None
  /\ valid_filename (filename Demo.report) = true
  /\ exists rest,
      snd (convert Demo.unconfigured Demo.report []) =
        [] ++ Net (POST "https://login.microsoftonline.com/None/oauth2/v2.0/token"
                        [ ("client_id", CLIENT_ID Demo.unconfigured);
                          ("client_secret", CLIENT_SECRET Demo.unconfigured);
                          ("grant_type", Some "client_credentials");
                          ("scope", Some "https://graph.microsoft.com/.default") ])
           :: rest
      /\ forall rq,
          In rq (calls rest) ->
          exists tail,
            request_url rq =
            ("https://graph.microsoft.com/v1.0/users/None/drive/root:/" ++ tail)%str.
Proof.
  do 3 (split; [reflexivity|]).
  exact (unset_configuration_is_not_checked Demo.unconfigured Demo.report []
           eq_refl eq_refl eq_refl).
Defined.

Lemma download_name_keeps_extension_witness :
  exists v p disposition,
    raw_headers Demo.report_pdf = [ (Py.b "content-disposition", disposition);
                                    (Py.b "content-type", Py.b "application/pdf") ]
    /\ v = ("attachment; filename=" ++ filename Demo.report ++ ".pdf")%str
    /\ Py.encode_latin1 v = Some disposition
    /\ (Py.lower v = (p ++ ".docx.pdf")%str
        \/ Py.lower v = (p ++ ".pptx.pdf")%str).
Proof.
  exact (download_name_keeps_extension Demo.happy Demo.report []
           [ Net (token_request Demo.happy); FileRead;
             Net (upload_request Demo.happy Demo.tok "report.docx" (Py.b "X"));
             Net (convert_request Demo.happy Demo.tok "report.docx");
             Net (delete_request Demo.happy Demo.tok "report.docx") ]
           Demo.report_pdf eq_refl).
Defined.

Lemma validation_reads_last_five_characters_witness :
  valid_filename "../../tmp/ a .b.DOCX" = valid_filename ".DOCX"
  /\ 5 <= Py.len "q.pptx".
Proof.
  split.
  - exact (proj1 validation_reads_last_five_characters "../../tmp/ a .b" ".DOCX"
             (le_n 5)).
  - exact (proj2 validation_reads_last_five_characters "q.pptx" eq_refl).
Defined.

(** The token endpoint grants one token only: the first request gets
    its PDF, the second is refused at its own token request. *)
Lemma token_is_not_reused_witness :
  let h1 := snd (convert Demo.one_token Demo.report []) in
  fst (convert Demo.one_token Demo.report []) =
    Ok Demo.report_pdf
  /\ fst (get_access_token Demo.one_token h1) =
       Raise (HTTPStatusError (mkResponse 401 (Py.b "{}")))
  /\ fst (convert Demo.one_token Demo.report h1) =
       Raise (HTTPStatusError (mkResponse 401 (Py.b "{}")))
  /\ snd (convert Demo.one_token Demo.report h1) =
       h1 ++ [Net (token_request Demo.one_token)].
Proof.
  cbv zeta. split; [reflexivity|]. split; [reflexivity|].
  destruct (token_is_not_reused Demo.one_token Demo.report Demo.report []
              eq_refl eq_refl) as (_ & rest & Hs & Hf & _).
  destruct (Hf _ eq_refl) as [He Hr]. split; [exact He|].
  rewrite Hs, Hr. reflexivity.
Defined.
